(** * ABCD optics: a Gaussian beam through ray-transfer matrices

    A shallow embedding of [opticalSystemClass.py] (class [OpticalSystem]),
    in two number models.

    The real-number model (the top level of this file).  Python floats and
    NumPy float64 values are modelled by the real numbers, Python complex
    and complex128 values by pairs of reals, and every scalar argument is a
    Python number.  Rounding, overflow and underflow are outside this
    model.  The two division semantics of the source are kept apart:
    - a division between Python scalars ([-1/f], [n1/n2], [.../wavelength])
      raises [ZeroDivisionError] on a zero divisor: [py_div], [py_cdiv];
    - a division in which an operand is a NumPy scalar (every division of
      [propagate_beam] and [plotBeamProfile]) returns inf or nan on a zero
      divisor and raises nothing: [np_div], [np_cdiv], whose result
      [NonFinite] stands for a value with an inf or nan component;
      [np.sqrt] of a negative number is nan likewise: [np_sqrt].

    The float64 model (module [Float64]).  The same class over IEEE
    binary64 with inf and nan, with Python and NumPy scalar arguments told
    apart; it is evaluated, and carries what rounding or the kind of an
    argument decides. *)

From Stdlib Require Import Reals Lra Psatz List String.
From Stdlib Require PrimFloat.
Import ListNotations.

Open Scope R_scope.

(** ** Exceptions and results *)

Inductive exn : Type :=
| ValueError (msg : string)
| ZeroDivisionError
| OverflowError
| AttributeError (attr : string).

Inductive result (A : Type) : Type :=
| Ok (a : A)
| Raise (e : exn).

Arguments Ok {A} a.
Arguments Raise {A} e.

Definition bind {A B : Type} (r : result A) (k : A -> result B) : result B :=
  match r with
  | Ok a => k a
  | Raise e => Raise e
  end.

Notation "x <- r ;; k" := (bind r (fun x => k))
  (at level 61, r at next level, right associativity).

(** ** NumPy values: finite, or inf/nan *)

Inductive npval (A : Type) : Type :=
| Finite (a : A)
| NonFinite.

Arguments Finite {A} a.
Arguments NonFinite {A}.

Definition np_bind {A B : Type} (v : npval A) (k : A -> npval B) : npval B :=
  match v with
  | Finite a => k a
  | NonFinite => NonFinite
  end.

Definition np_map {A B : Type} (f : A -> B) (v : npval A) : npval B :=
  np_bind v (fun a => Finite (f a)).

(** ** Complex numbers *)

Record complex : Type := mkC { real : R; imag : R }.

Definition RtoC (x : R) : complex := mkC x 0.
Definition Cj : complex := mkC 0 1.

Definition Cadd (u v : complex) : complex :=
  mkC (real u + real v) (imag u + imag v).

Definition Cmul (u v : complex) : complex :=
  mkC (real u * real v - imag u * imag v)
      (real u * imag v + imag u * real v).

Definition Cnorm2 (v : complex) : R := real v * real v + imag v * imag v.

(** The quotient for a nonzero divisor. *)
Definition Cquot (u v : complex) : complex :=
  mkC ((real u * real v + imag u * imag v) / Cnorm2 v)
      ((imag u * real v - real u * imag v) / Cnorm2 v).

Definition Ceq_dec (u v : complex) : {u = v} + {u <> v}.
Proof.
  destruct u as [a b], v as [c d].
  destruct (Req_dec_T a c) as [Hac | Hac].
  - destruct (Req_dec_T b d) as [Hbd | Hbd].
    + left. now rewrite Hac, Hbd.
    + right. intros H. apply Hbd. now inversion H.
  - right. intros H. apply Hac. now inversion H.
Defined.

(** Division between Python scalars. *)
Definition py_div (x y : R) : result R :=
  if Req_dec_T y 0 then Raise ZeroDivisionError else Ok (x / y).

Definition py_cdiv (u v : complex) : result complex :=
  if Ceq_dec v (RtoC 0) then Raise ZeroDivisionError else Ok (Cquot u v).

(** Division with a NumPy operand. *)
Definition np_div (x y : R) : npval R :=
  if Req_dec_T y 0 then NonFinite else Finite (x / y).

(** [np.sqrt]: nan, with a warning and no exception, on a negative
    argument. *)
Definition np_sqrt (x : R) : npval R :=
  if Rlt_dec x 0 then NonFinite else Finite (sqrt x).

Definition np_cdiv (u v : complex) : npval complex :=
  if Ceq_dec v (RtoC 0) then NonFinite else Finite (Cquot u v).

(** ** 2x2 matrices and column vectors *)

Record matrix : Type := mkM { m00 : R; m01 : R; m10 : R; m11 : R }.

Record colvec : Type := mkV { v0 : R; v1 : R }.

(** [np.eye(2)] *)
Definition eye : matrix := mkM 1 0 0 1.

(** [np.matmul] (and [@]) on two 2x2 matrices *)
Definition matmul (a b : matrix) : matrix :=
  mkM (m00 a * m00 b + m01 a * m10 b) (m00 a * m01 b + m01 a * m11 b)
      (m10 a * m00 b + m11 a * m10 b) (m10 a * m01 b + m11 a * m11 b).

(** [np.matmul] of a 2x2 matrix and a 2x1 column *)
Definition matvec (a : matrix) (v : colvec) : colvec :=
  mkV (m00 a * v0 v + m01 a * v1 v) (m10 a * v0 v + m11 a * v1 v).

(** ** The class [OpticalSystem] *)

(** The attributes of an instance.  [q_out], [waist_out], [z_out] and
    [theta_out] do not exist until [propagate_beam] assigns them: [None] is
    an absent attribute. *)
Record OpticalSystem : Type := mkOS {
  q : complex;
  wavelength : R;
  waist : R;
  theta : R;
  z : R;
  optics : list matrix;
  q_out : option (npval complex);
  waist_out : option (npval R);
  z_out : option R;
  theta_out : option R
}.

(** [__init__(self, wavelength, waist, z=0, theta=0, R=np.inf)]; the
    argument [R] is not used.  [1j*np.pi*waist**2/wavelength] is a division
    of Python scalars.  The [OverflowError] of [waist**2] for a waist beyond
    about 1.3e154 has no counterpart over the reals; [Float64.__init__] has
    it. *)
Definition __init__ (wavelength waist z theta : R) (Rcurv : npval R)
  : result OpticalSystem :=
  q <- py_cdiv (Cmul (Cmul Cj (RtoC PI)) (RtoC (waist ^ 2))) (RtoC wavelength) ;;
  Ok (mkOS q wavelength waist theta z [] None None None None).

(** [self.optics.append(m)] *)
Definition optics_append (self : OpticalSystem) (m : matrix) : OpticalSystem :=
  mkOS (q self) (wavelength self) (waist self) (theta self) (z self)
       (optics self ++ [m])
       (q_out self) (waist_out self) (z_out self) (theta_out self).

(** [np.matrix([[1, d], [0, 1]])] *)
Definition freeSpace_matrix (d : R) : matrix := mkM 1 d 0 1.

(** [freeSpace(self, d, add=True)]: the object after the call and the value
    returned ([None] of Python is [None]). *)
Definition freeSpace (d : R) (add : bool) (self : OpticalSystem)
  : OpticalSystem * option matrix :=
  if add then (optics_append self (freeSpace_matrix d), None)
  else (self, Some (freeSpace_matrix d)).

(** [lens(self, f, n1=0, n2=0, d=0, type='thin')].  [self.freeSpace(d,
    add=False)] returns [freeSpace_matrix d] and leaves the object as it is
    (lemma [freeSpace_no_add]). *)
Definition lens (f n1 n2 d : R) (type : string) (self : OpticalSystem)
  : result OpticalSystem :=
  if String.eqb type "thin" then
    c <- py_div (-1) f ;;
    Ok (optics_append self (mkM 1 0 c 1))
  else if String.eqb type "thick" then
    c1 <- (t <- py_div (n2 - n1) n1 ;; py_div t f) ;;
    d1 <- py_div n2 n1 ;;
    c2 <- (t <- py_div (n1 - n2) n2 ;; py_div t f) ;;
    d2 <- py_div n1 n2 ;;
    Ok (optics_append self
          (matmul (matmul (mkM 1 0 c1 d1) (freeSpace_matrix d)) (mkM 1 0 c2 d2)))
  else Raise (ValueError "Invalid lens type").

(** [mirror(self, radius=0, type='flat')] *)
Definition mirror (radius : R) (type : string) (self : OpticalSystem)
  : result OpticalSystem :=
  if String.eqb type "flat" then
    Ok (optics_append self (mkM 1 0 0 1))
  else if String.eqb type "curved" then
    c <- py_div (-2) radius ;;
    Ok (optics_append self (mkM 1 0 c 1))
  else Raise (ValueError "Invalid mirror type").

(** [interface(self, n1, n2, d)] *)
Definition interface (n1 n2 d : R) (self : OpticalSystem)
  : result OpticalSystem :=
  r12 <- py_div n1 n2 ;;
  let initialInt := mkM 1 0 0 r12 in
  let propagation := freeSpace_matrix d in
  r21 <- py_div n2 n1 ;;
  let finalInt := mkM 1 0 0 r21 in
  Ok (optics_append self (matmul (matmul initialInt propagation) finalInt)).

(** [plotOpticalSystem(self)]: [pass]. *)
Definition plotOpticalSystem (self : OpticalSystem) : OpticalSystem := self.

(** The loop of [propagate_beam]:
    [for element in reversed(self.optics): ABCD_matrix = np.matmul(ABCD_matrix, element)]
    started from [np.eye(2)]. *)
Definition compose_optics (elements : list matrix) : matrix :=
  fold_left matmul (rev elements) eye.

(** [A*self.q + B/(C*self.q + D)], with the precedence of the source: the
    quotient is [B/(C*self.q + D)] alone.  [A], [B], [C], [D] are NumPy
    scalars. *)
Definition q_transform (m : matrix) (q : complex) : npval complex :=
  np_bind (np_cdiv (RtoC (m01 m)) (Cadd (Cmul (RtoC (m10 m)) q) (RtoC (m11 m))))
          (fun t => Finite (Cadd (Cmul (RtoC (m00 m)) q) t)).

(** [np.sqrt(wavelength * np.abs(np.imag(q_out)) / np.pi)
     * np.sqrt(1 + (np.real(q_out) / np.imag(q_out))**2)] *)
Definition waist_of_q (wavelength : R) (qo : npval complex) : npval R :=
  np_bind qo (fun c =>
  np_bind (np_sqrt (wavelength * Rabs (imag c) / PI)) (fun s1 =>
  np_bind (np_div (real c) (imag c)) (fun r =>
  np_bind (np_sqrt (1 + r ^ 2)) (fun s2 =>
  Finite (s1 * s2))))).

(** [propagate_beam(self)] *)
Definition propagate_beam (self : OpticalSystem) : OpticalSystem :=
  let beamMatrix := mkV (z self) (theta self) in
  let ABCD_matrix := compose_optics (optics self) in
  let beamMatrix := matvec ABCD_matrix beamMatrix in
  let qo := q_transform ABCD_matrix (q self) in
  let wo := waist_of_q (wavelength self) qo in
  mkOS (q self) (wavelength self) (waist self) (theta self) (z self)
       (optics self)
       (Some qo) (Some wo) (Some (v0 beamMatrix)) (Some (v1 beamMatrix)).

(** Reading an attribute: [self.q_out] and the like raise [AttributeError]
    while the attribute is absent. *)
Definition getattr {A : Type} (name : string) (field : option A) : result A :=
  match field with
  | Some a => Ok a
  | None => Raise (AttributeError name)
  end.

Definition get_q_out (self : OpticalSystem) := getattr "q_out" (q_out self).
Definition get_waist_out (self : OpticalSystem) := getattr "waist_out" (waist_out self).
Definition get_z_out (self : OpticalSystem) := getattr "z_out" (z_out self).
Definition get_theta_out (self : OpticalSystem) := getattr "theta_out" (theta_out self).

(** [np.linspace(start, stop, num)] *)
Definition linspace (start stop : R) (num : nat) : list R :=
  map (fun i => start + INR i * ((stop - start) / INR (num - 1))) (seq 0 num).

(** The series [plotBeamProfile] hands to matplotlib. *)
Record profile : Type := mkProfile {
  z1_values : list R;
  beam_profile : list (npval R);
  z_r : npval R;
  z2_values : npval (list R);
  w_z : npval (list (npval R));
  w_z2 : R
}.

(** [plotBeamProfile(self)]: the series computed from [waist_out] (the
    drawing itself is not modelled), or [ValueError] while [waist_out] is
    absent. *)
Definition plotBeamProfile (self : OpticalSystem) : result (npval profile) :=
  match waist_out self with
  | Some wo =>
      Ok (np_map (fun w =>
        let z1 := linspace (-10 * w) (10 * w) 100 in
        let zr := np_div (PI * w ^ 2) (wavelength self) in
        mkProfile z1
          (map (fun x => np_map exp (np_div (- x ^ 2) (w ^ 2))) z1)
          zr
          (np_map (fun r => linspace (-2 * r) (2 * r) 100) zr)
          (np_map (fun r =>
             map (fun x => np_map (fun t => w * sqrt (1 + t ^ 2)) (np_div x r))
                 (linspace (-2 * r) (2 * r) 100)) zr)
          (sqrt 2 * w)) wo)
  | None =>
      Raise (ValueError
        "Beam has not been propagated yet. Run the propagate_beam() method first.")
  end.

(** ** Sequences of element appends *)

Inductive element_call : Type :=
| CallFreeSpace (d : R)
| CallLens (f n1 n2 d : R) (type : string)
| CallMirror (radius : R) (type : string)
| CallInterface (n1 n2 d : R).

Definition append_element (c : element_call) (self : OpticalSystem)
  : result OpticalSystem :=
  match c with
  | CallFreeSpace d => Ok (fst (freeSpace d true self))
  | CallLens f n1 n2 d type => lens f n1 n2 d type self
  | CallMirror radius type => mirror radius type self
  | CallInterface n1 n2 d => interface n1 n2 d self
  end.

(** The calls in order, stopping at the first one that raises. *)
Fixpoint append_elements (cs : list element_call) (self : OpticalSystem)
  : result OpticalSystem :=
  match cs with
  | [] => Ok self
  | c :: rest => self' <- append_element c self ;; append_elements rest self'
  end.

(** ** The transform of the specification *)

(** The bilinear transform [(A*q + B) / (C*q + D)], for comparison with
    [q_transform]. *)
Definition bilinear (m : matrix) (q : complex) : npval complex :=
  np_cdiv (Cadd (Cmul (RtoC (m00 m)) q) (RtoC (m01 m)))
          (Cadd (Cmul (RtoC (m10 m)) q) (RtoC (m11 m))).


(** ** Notions used to state properties *)

(** The sum of a list of distances. *)
Definition total_distance (ds : list R) : R := fold_right Rplus 0 ds.


(** * The class in float64 arithmetic

    The definitions above compute over the real numbers.  [Float64] is the
    same class over IEEE binary64, evaluated by the kernel, for what depends
    on rounding, on inf and nan, or on the kind of a scalar argument.

    A scalar argument is a Python float ([Py]; a Python int is taken as the
    float of the same value) or a NumPy float64 scalar ([Np]).  The kind
    decides which division runs: [np.float64] is a subclass of [float], so
    in [x / y] NumPy's division is called as soon as one operand is a NumPy
    scalar, and Python's division, which raises [ZeroDivisionError] on a
    zero divisor, only when both are Python numbers.

    [x ** 2] is taken as the correctly rounded product [x * x], and
    [np.matmul] as sums of separately rounded products (a build of NumPy
    that fuses the multiply-add rounds once instead); no fact stated on
    this module depends on either choice. *)

Module Float64.

Import PrimFloat.
Local Open Scope float_scope.

Inductive scalar : Type :=
| Py (x : float)
| Np (x : float).

Definition value (s : scalar) : float :=
  match s with
  | Py x => x
  | Np x => x
  end.

(** [x - y] *)
Definition sub (x y : scalar) : scalar :=
  match x, y with
  | Py a, Py b => Py (a - b)
  | _, _ => Np (value x - value y)
  end.

(** [x / y] *)
Definition truediv (x y : scalar) : result scalar :=
  match x, y with
  | Py a, Py b => if b =? 0 then Raise ZeroDivisionError else Ok (Py (a / b))
  | _, _ => Ok (Np (value x / value y))
  end.

(** [x ** 2]: Python's [float.__pow__] raises [OverflowError] when the
    result overflows; NumPy's returns inf. *)
Definition square (x : scalar) : result scalar :=
  match x with
  | Py a =>
      if andb (is_infinity (a * a)) (negb (is_infinity a)) then Raise OverflowError
      else Ok (Py (a * a))
  | Np a => Ok (Np (a * a))
  end.

(** [np.pi] *)
Definition np_pi : float := 0x1.921fb54442d18p+1.

Record complex : Type := mkC { real : float; imag : float }.

(** The complex of a float operand of a complex operation. *)
Definition of_float (x : float) : complex := mkC x 0.

(** Complex product, of Python and of NumPy. *)
Definition c_prod (a b : complex) : complex :=
  mkC (real a * real b - imag a * imag b)
      (real a * imag b + imag a * real b).

Definition c_sum (a b : complex) : complex :=
  mkC (real a + real b) (imag a + imag b).

(** Python's complex quotient: [ZeroDivisionError] on a zero divisor. *)
Definition py_c_quot (a b : complex) : result complex :=
  if abs (imag b) <=? abs (real b) then
    if abs (real b) =? 0 then Raise ZeroDivisionError
    else
      let ratio := imag b / real b in
      let denom := real b + imag b * ratio in
      Ok (mkC ((real a + imag a * ratio) / denom)
              ((imag a - real a * ratio) / denom))
  else if abs (real b) <=? abs (imag b) then
    let ratio := real b / imag b in
    let denom := real b * ratio + imag b in
    Ok (mkC ((real a * ratio + imag a) / denom)
            ((imag a * ratio - real a) / denom))
  else Ok (mkC nan nan).

(** NumPy's complex quotient: inf and nan on a zero divisor, no
    exception. *)
Definition np_c_quot (a b : complex) : complex :=
  if abs (imag b) <=? abs (real b) then
    if andb (abs (real b) =? 0) (abs (imag b) =? 0) then
      mkC (real a / abs (real b)) (imag a / abs (real b))
    else
      let rat := imag b / real b in
      let scl := 1 / (real b + imag b * rat) in
      mkC ((real a + imag a * rat) * scl) ((imag a - real a * rat) * scl)
  else
    let rat := real b / imag b in
    let scl := 1 / (imag b + real b * rat) in
    mkC ((real a * rat + imag a) * scl) ((imag a * rat - real a) * scl).

Record matrix : Type := mkM { m00 : float; m01 : float; m10 : float; m11 : float }.

Definition eye : matrix := mkM 1 0 0 1.

Definition matmul (a b : matrix) : matrix :=
  mkM (m00 a * m00 b + m01 a * m10 b) (m00 a * m01 b + m01 a * m11 b)
      (m10 a * m00 b + m11 a * m10 b) (m10 a * m01 b + m11 a * m11 b).

Record OpticalSystem : Type := mkOS {
  q : complex;
  wavelength : scalar;
  waist : scalar;
  theta : scalar;
  z : scalar;
  optics : list matrix;
  q_out : option complex;
  waist_out : option float;
  z_out : option float;
  theta_out : option float
}.

(** [__init__]: [1j*np.pi*waist**2/wavelength] is a product and a quotient
    of Python complex numbers whatever the kinds of [waist] and
    [wavelength] are; only [waist**2] depends on the kind. *)
Definition __init__ (wavelength waist z theta Rcurv : scalar)
  : result OpticalSystem :=
  w2 <- square waist ;;
  q <- py_c_quot (c_prod (c_prod (mkC 0 1) (of_float np_pi)) (of_float (value w2)))
                 (of_float (value wavelength)) ;;
  Ok (mkOS q wavelength waist theta z [] None None None None).

Definition optics_append (self : OpticalSystem) (m : matrix) : OpticalSystem :=
  mkOS (q self) (wavelength self) (waist self) (theta self) (z self)
       (optics self ++ [m])
       (q_out self) (waist_out self) (z_out self) (theta_out self).

Definition freeSpace_matrix (d : scalar) : matrix := mkM 1 (value d) 0 1.

Definition freeSpace (d : scalar) (add : bool) (self : OpticalSystem)
  : OpticalSystem * option matrix :=
  if add then (optics_append self (freeSpace_matrix d), None)
  else (self, Some (freeSpace_matrix d)).

Definition lens (f n1 n2 d : scalar) (type : string) (self : OpticalSystem)
  : result OpticalSystem :=
  if String.eqb type "thin" then
    c <- truediv (Py (-1)) f ;;
    Ok (optics_append self (mkM 1 0 (value c) 1))
  else if String.eqb type "thick" then
    c1 <- (t <- truediv (sub n2 n1) n1 ;; truediv t f) ;;
    d1 <- truediv n2 n1 ;;
    c2 <- (t <- truediv (sub n1 n2) n2 ;; truediv t f) ;;
    d2 <- truediv n1 n2 ;;
    Ok (optics_append self
          (matmul (matmul (mkM 1 0 (value c1) (value d1)) (freeSpace_matrix d))
                  (mkM 1 0 (value c2) (value d2))))
  else Raise (ValueError "Invalid lens type").

Definition mirror (radius : scalar) (type : string) (self : OpticalSystem)
  : result OpticalSystem :=
  if String.eqb type "flat" then
    Ok (optics_append self (mkM 1 0 0 1))
  else if String.eqb type "curved" then
    c <- truediv (Py (-2)) radius ;;
    Ok (optics_append self (mkM 1 0 (value c) 1))
  else Raise (ValueError "Invalid mirror type").

Definition interface (n1 n2 d : scalar) (self : OpticalSystem)
  : result OpticalSystem :=
  r12 <- truediv n1 n2 ;;
  let initialInt := mkM 1 0 0 (value r12) in
  let propagation := freeSpace_matrix d in
  r21 <- truediv n2 n1 ;;
  let finalInt := mkM 1 0 0 (value r21) in
  Ok (optics_append self (matmul (matmul initialInt propagation) finalInt)).

Definition compose_optics (elements : list matrix) : matrix :=
  fold_left matmul (rev elements) eye.

(** [propagate_beam]: every operand of lines 88 to 98 is a NumPy value. *)
Definition propagate_beam (self : OpticalSystem) : OpticalSystem :=
  let ABCD_matrix := compose_optics (optics self) in
  let A := m00 ABCD_matrix in
  let B := m01 ABCD_matrix in
  let C := m10 ABCD_matrix in
  let D := m11 ABCD_matrix in
  let zv := value (z self) in
  let tv := value (theta self) in
  let qo :=
    c_sum (c_prod (of_float A) (q self))
          (np_c_quot (of_float B)
                     (c_sum (c_prod (of_float C) (q self)) (of_float D))) in
  let ratio := real qo / imag qo in
  let wo := sqrt (value (wavelength self) * abs (imag qo) / np_pi)
            * sqrt (1 + ratio * ratio) in
  mkOS (q self) (wavelength self) (waist self) (theta self) (z self)
       (optics self)
       (Some qo) (Some wo)
       (Some (A * zv + B * tv)) (Some (C * zv + D * tv)).

End Float64.

(** * Properties *)

(** ** Divisions *)

Lemma py_div_nonzero (x y : R) : y <> 0 -> py_div x y = Ok (x / y).
Proof. intros Hy. unfold py_div. now destruct (Req_dec_T y 0). Qed.

Lemma py_div_zero (x : R) : py_div x 0 = Raise ZeroDivisionError.
Proof. unfold py_div. now destruct (Req_dec_T 0 0). Qed.

Lemma np_div_nonzero (x y : R) : y <> 0 -> np_div x y = Finite (x / y).
Proof. intros Hy. unfold np_div. now destruct (Req_dec_T y 0). Qed.

Lemma np_div_zero (x : R) : np_div x 0 = NonFinite.
Proof. unfold np_div. now destruct (Req_dec_T 0 0). Qed.

Lemma complex_eq (a b c d : R) : a = c -> b = d -> mkC a b = mkC c d.
Proof. intros -> ->. reflexivity. Qed.

Lemma complex_nonzero_real (v : complex) : real v <> 0 -> v <> RtoC 0.
Proof. intros H E. apply H. now rewrite E. Qed.

Lemma complex_nonzero_imag (v : complex) : imag v <> 0 -> v <> RtoC 0.
Proof. intros H E. apply H. now rewrite E. Qed.

Lemma py_cdiv_nonzero (u v : complex) :
  v <> RtoC 0 -> py_cdiv u v = Ok (Cquot u v).
Proof. intros Hv. unfold py_cdiv. now destruct (Ceq_dec v (RtoC 0)). Qed.

Lemma np_cdiv_nonzero (u v : complex) :
  v <> RtoC 0 -> np_cdiv u v = Finite (Cquot u v).
Proof. intros Hv. unfold np_cdiv. now destruct (Ceq_dec v (RtoC 0)). Qed.

Lemma np_cdiv_zero (u : complex) : np_cdiv u (RtoC 0) = NonFinite.
Proof. unfold np_cdiv. now destruct (Ceq_dec (RtoC 0) (RtoC 0)). Qed.

(** ** Matrix algebra *)

Lemma matrix_eq (a b c d a' b' c' d' : R) :
  a = a' -> b = b' -> c = c' -> d = d' -> mkM a b c d = mkM a' b' c' d'.
Proof. intros -> -> -> ->. reflexivity. Qed.

Ltac matrix_ring :=
  unfold matmul, matvec, eye, freeSpace_matrix; simpl;
  first [ apply matrix_eq | f_equal ]; ring.

Lemma matmul_assoc (a b c : matrix) :
  matmul (matmul a b) c = matmul a (matmul b c).
Proof. destruct a, b, c. matrix_ring. Qed.

Lemma matmul_eye_l (a : matrix) : matmul eye a = a.
Proof. destruct a. matrix_ring. Qed.

Lemma matmul_eye_r (a : matrix) : matmul a eye = a.
Proof. destruct a. matrix_ring. Qed.


Lemma matvec_eye (v : colvec) : matvec eye v = v.
Proof. destruct v. matrix_ring. Qed.

Lemma freeSpace_matrix_add (d1 d2 : R) :
  matmul (freeSpace_matrix d2) (freeSpace_matrix d1) = freeSpace_matrix (d1 + d2).
Proof. matrix_ring. Qed.

(** ** The composition loop *)

Lemma compose_optics_nil : compose_optics [] = eye.
Proof. reflexivity. Qed.

(** One more turn of the loop: the element visited last is the one appended
    first, and it is multiplied on the right. *)
Lemma compose_optics_cons (e : matrix) (rest : list matrix) :
  compose_optics (e :: rest) = matmul (compose_optics rest) e.
Proof.
  unfold compose_optics. simpl rev. now rewrite fold_left_app.
Qed.

Lemma fold_left_matmul_start (l : list matrix) (a : matrix) :
  fold_left matmul l a = matmul a (fold_left matmul l eye).
Proof.
  revert a. induction l as [| e l IH]; intros a; simpl.
  - now rewrite matmul_eye_r.
  - rewrite (IH (matmul a e)), (IH (matmul eye e)).
    now rewrite matmul_eye_l, matmul_assoc.
Qed.

Lemma compose_optics_snoc (elements : list matrix) (e : matrix) :
  compose_optics (elements ++ [e]) = matmul e (compose_optics elements).
Proof.
  unfold compose_optics. rewrite rev_app_distr. simpl.
  now rewrite fold_left_matmul_start, matmul_eye_l.
Qed.


(** ** The append operations *)

Lemma freeSpace_no_add (d : R) (self : OpticalSystem) :
  freeSpace d false self = (self, Some (freeSpace_matrix d)).
Proof. reflexivity. Qed.

Lemma freeSpace_add (d : R) (self : OpticalSystem) :
  freeSpace d true self = (optics_append self (freeSpace_matrix d), None).
Proof. reflexivity. Qed.

(** ** Composition order *)


(** ** Repeated propagation *)

(** C7: a second [propagate_beam] with no append in between leaves the
    object exactly as the first call left it, so [q_out], [waist_out],
    [z_out] and [theta_out] are reproduced; and a call changes nothing but
    these four attributes. *)
Theorem propagate_beam_idempotent :
  forall (self : OpticalSystem),
    propagate_beam (propagate_beam self) = propagate_beam self /\
    q_out (propagate_beam (propagate_beam self)) = q_out (propagate_beam self) /\
    waist_out (propagate_beam (propagate_beam self)) = waist_out (propagate_beam self) /\
    z_out (propagate_beam (propagate_beam self)) = z_out (propagate_beam self) /\
    theta_out (propagate_beam (propagate_beam self)) = theta_out (propagate_beam self) /\
    q (propagate_beam self) = q self /\
    wavelength (propagate_beam self) = wavelength self /\
    waist (propagate_beam self) = waist self /\
    theta (propagate_beam self) = theta self /\
    z (propagate_beam self) = z self /\
    optics (propagate_beam self) = optics self.
Proof.
  intros self. repeat split; reflexivity.
Qed.

(** ** Thin lens *)

(** C10: with [type='thin'] the lens operation ignores [n1], [n2] and [d]:
    two calls that agree on [f] give the same result, which is the appended
    matrix [[1,0],[-1/f,1]] for a nonzero [f] (and [ZeroDivisionError] for
    [f = 0], whatever the other arguments). *)
Theorem lens_thin_ignores_indices_and_thickness :
  forall (f n1 n2 d n1' n2' d' : R) (self : OpticalSystem),
    lens f n1 n2 d "thin" self = lens f n1' n2' d' "thin" self /\
    lens f n1 n2 d "thin" self
    = if Req_dec_T f 0 then Raise ZeroDivisionError
      else Ok (optics_append self (mkM 1 0 (-1 / f) 1)).
Proof.
  intros f n1 n2 d n1' n2' d' self. split.
  - reflexivity.
  - unfold lens, py_div. simpl. now destruct (Req_dec_T f 0).
Qed.

(** ** Construction *)

Lemma init_nonzero_wavelength (wl w z0 th : R) (Rcurv : npval R) :
  wl <> 0 ->
  __init__ wl w z0 th Rcurv
  = Ok (mkOS (mkC 0 (PI * w ^ 2 / wl)) wl w th z0 [] None None None None).
Proof.
  intros Hwl. unfold __init__.
  rewrite py_cdiv_nonzero by (apply complex_nonzero_real; exact Hwl).
  simpl. do 2 f_equal. unfold Cquot, Cnorm2. simpl.
  apply complex_eq; field; exact Hwl.
Qed.

Lemma init_zero_wavelength (w z0 th : R) (Rcurv : npval R) :
  __init__ 0 w z0 th Rcurv = Raise ZeroDivisionError.
Proof.
  unfold __init__, py_cdiv. now destruct (Ceq_dec (RtoC 0) (RtoC 0)).
Qed.

(** ** The transform of [q] *)

Lemma q_transform_finite (m : matrix) (q0 : complex) :
  Cadd (Cmul (RtoC (m10 m)) q0) (RtoC (m11 m)) <> RtoC 0 ->
  q_transform m q0
  = Finite (Cadd (Cmul (RtoC (m00 m)) q0)
                 (Cquot (RtoC (m01 m))
                        (Cadd (Cmul (RtoC (m10 m)) q0) (RtoC (m11 m))))).
Proof.
  intros H. unfold q_transform. now rewrite np_cdiv_nonzero.
Qed.

Lemma q_transform_nonfinite (m : matrix) (q0 : complex) :
  Cadd (Cmul (RtoC (m10 m)) q0) (RtoC (m11 m)) = RtoC 0 ->
  q_transform m q0 = NonFinite.
Proof.
  intros H. unfold q_transform. rewrite H. now rewrite np_cdiv_zero.
Qed.

(** A matrix [[a, b], [0, 1]] sends [q] to [a*q + b]. *)
Lemma q_transform_affine (a b x y : R) :
  q_transform (mkM a b 0 1) (mkC x y) = Finite (mkC (a * x + b) (a * y)).
Proof.
  rewrite q_transform_finite.
  - f_equal. unfold Cquot, Cnorm2. apply complex_eq; simpl; field; lra.
  - apply complex_nonzero_real. simpl. lra.
Qed.

(** A matrix [[1, 0], [c, 1]] (thin lens, curved mirror) leaves [q] as it
    is, when [c*q + 1] is not zero. *)
Lemma q_transform_lower (c x y : R) :
  mkC (c * x + 1) (c * y) <> RtoC 0 ->
  q_transform (mkM 1 0 c 1) (mkC x y) = Finite (mkC x y).
Proof.
  intros H.
  assert (Hn : (c * x + 1) * (c * x + 1) + (c * y) * (c * y) <> 0).
  { intros E.
    assert (E1 : c * x + 1 = 0) by nra.
    assert (E2 : c * y = 0) by nra.
    apply H. unfold RtoC. now rewrite E1, E2. }
  rewrite q_transform_finite.
  - f_equal. unfold Cquot, Cnorm2. apply complex_eq; simpl; field.
    + intros E. apply Hn. rewrite <- E. ring.
    + intros E. apply Hn. rewrite <- E. ring.
  - simpl. intros E. apply H. rewrite <- E. unfold Cadd, Cmul, RtoC. simpl.
    apply complex_eq; ring.
Qed.

(** ** The waist *)

Lemma np_sqrt_nonneg (x : R) : 0 <= x -> np_sqrt x = Finite (sqrt x).
Proof.
  intros Hx. unfold np_sqrt. destruct (Rlt_dec x 0) as [H | H]; [lra | reflexivity].
Qed.

Lemma np_sqrt_neg (x : R) : x < 0 -> np_sqrt x = NonFinite.
Proof.
  intros Hx. unfold np_sqrt. destruct (Rlt_dec x 0) as [H | H]; [reflexivity | lra].
Qed.

Lemma np_sqrt_one_plus_square (r : R) :
  np_sqrt (1 + r ^ 2) = Finite (sqrt (1 + r ^ 2)).
Proof. apply np_sqrt_nonneg. assert (H := pow2_ge_0 r). lra. Qed.

Lemma radicand_sign (wl y : R) :
  y <> 0 -> (0 <= wl -> 0 <= wl * Rabs y / PI) /\ (wl < 0 -> wl * Rabs y / PI < 0).
Proof.
  intros Hy.
  assert (Hpi := PI_RGT_0).
  assert (Ha : 0 < Rabs y) by (now apply Rabs_pos_lt).
  assert (Hinv : 0 < / PI) by (apply Rinv_0_lt_compat; lra).
  unfold Rdiv. split; intros Hwl.
  - apply Rmult_le_pos; [| lra]. apply Rmult_le_pos; lra.
  - assert (H : 0 < (- wl) * Rabs y * / PI).
    { apply Rmult_lt_0_compat; [| lra]. apply Rmult_lt_0_compat; lra. }
    lra.
Qed.

Lemma waist_of_q_finite (wl : R) (c : complex) :
  0 <= wl -> imag c <> 0 ->
  waist_of_q wl (Finite c)
  = Finite (sqrt (wl * Rabs (imag c) / PI) * sqrt (1 + (real c / imag c) ^ 2)).
Proof.
  intros Hwl H. unfold waist_of_q. cbn [np_bind].
  destruct (radicand_sign wl (imag c) H) as [Hpos _].
  rewrite (np_sqrt_nonneg _ (Hpos Hwl)). cbn [np_bind].
  rewrite (np_div_nonzero _ _ H). cbn [np_bind].
  now rewrite np_sqrt_one_plus_square.
Qed.

Lemma waist_of_q_negative (wl : R) (c : complex) :
  wl < 0 -> imag c <> 0 -> waist_of_q wl (Finite c) = NonFinite.
Proof.
  intros Hwl H. unfold waist_of_q. cbn [np_bind].
  destruct (radicand_sign wl (imag c) H) as [_ Hneg].
  now rewrite (np_sqrt_neg _ (Hneg Hwl)).
Qed.

Lemma waist_of_q_zero_imag (wl : R) (c : complex) :
  imag c = 0 -> waist_of_q wl (Finite c) = NonFinite.
Proof.
  intros H. unfold waist_of_q. cbn [np_bind].
  destruct (np_sqrt _); cbn [np_bind]; [| reflexivity].
  now rewrite H, np_div_zero.
Qed.

(** In exact arithmetic the formula of [propagate_beam], taken at the
    waist [q = i*pi*waist^2/wavelength], gives the waist back. *)
Lemma waist_formula_at_waist_exact (wl w : R) :
  0 < wl -> 0 < w ->
  sqrt (wl * (PI * w ^ 2 / wl) / PI) = w.
Proof.
  intros Hwl Hw.
  assert (Hpi := PI_RGT_0).
  replace (wl * (PI * w ^ 2 / wl) / PI) with (w * w) by (field; lra).
  apply sqrt_square. lra.
Qed.

Lemma compose_optics_single (m : matrix) : compose_optics [m] = m.
Proof. rewrite compose_optics_cons, compose_optics_nil. apply matmul_eye_l. Qed.

Lemma interface_nonzero (n1 n2 d : R) (self : OpticalSystem) :
  n1 <> 0 -> n2 <> 0 ->
  interface n1 n2 d self = Ok (optics_append self (freeSpace_matrix (d * n2 / n1))).
Proof.
  intros H1 H2. unfold interface.
  rewrite (py_div_nonzero n1 n2 H2), (py_div_nonzero n2 n1 H1). simpl.
  do 2 f_equal. unfold freeSpace_matrix, matmul.
  apply matrix_eq; simpl; field; auto.
Qed.

Lemma append_element_outputs (c : element_call) (self self' : OpticalSystem) :
  append_element c self = Ok self' ->
  q_out self' = q_out self /\ waist_out self' = waist_out self /\
  z_out self' = z_out self /\ theta_out self' = theta_out self.
Proof.
  destruct c as [d | f n1 n2 d type | radius type | n1 n2 d]; simpl.
  - intros H. injection H as <-. now repeat split.
  - unfold lens.
    destruct (String.eqb type "thin").
    + destruct (py_div (-1) f); simpl; [| discriminate].
      intros H. injection H as <-. now repeat split.
    + destruct (String.eqb type "thick"); [| discriminate].
      destruct (py_div (n2 - n1) n1) as [t1 |]; simpl; [| discriminate].
      destruct (py_div t1 f); simpl; [| discriminate].
      destruct (py_div n2 n1); simpl; [| discriminate].
      destruct (py_div (n1 - n2) n2) as [t2 |]; simpl; [| discriminate].
      destruct (py_div t2 f); simpl; [| discriminate].
      destruct (py_div n1 n2); simpl; [| discriminate].
      intros H. injection H as <-. now repeat split.
  - unfold mirror.
    destruct (String.eqb type "flat").
    + intros H. injection H as <-. now repeat split.
    + destruct (String.eqb type "curved"); [| discriminate].
      destruct (py_div (-2) radius); simpl; [| discriminate].
      intros H. injection H as <-. now repeat split.
  - unfold interface.
    destruct (py_div n1 n2); simpl; [| discriminate].
    destruct (py_div n2 n1); simpl; [| discriminate].
    intros H. injection H as <-. now repeat split.
Qed.

Lemma append_elements_outputs (cs : list element_call) :
  forall (self self' : OpticalSystem),
    append_elements cs self = Ok self' ->
    q_out self' = q_out self /\ waist_out self' = waist_out self /\
    z_out self' = z_out self /\ theta_out self' = theta_out self.
Proof.
  induction cs as [| c rest IH]; intros self self'; simpl.
  - intros H. injection H as <-. now repeat split.
  - destruct (append_element c self) as [s1 |] eqn:E; simpl; [| discriminate].
    intros H. apply IH in H. apply append_element_outputs in E.
    destruct H as (Hq & Hw & Hz & Ht), E as (Eq & Ew & Ez & Et).
    repeat split; congruence.
Qed.

(** ** The bilinear transform *)

(** C1, at the beam [OpticalSystem(1, 1)] after [lens(1)]: the composed
    matrix is [[1,0],[-1,1]] and [q = i*pi]; [propagate_beam] stores
    [q_out = q], because [A*q + B/(C*q + D)] divides [B = 0] alone, while
    the bilinear transform [(A*q + B)/(C*q + D)] is
    [(-pi^2 + i*pi)/(1 + pi^2)].  The stored [q_out] is not the bilinear
    transform. *)
Theorem propagate_beam_thin_lens_q_out :
  exists (s0 s1 : OpticalSystem),
    __init__ 1 1 0 0 NonFinite = Ok s0 /\
    lens 1 0 0 0 "thin" s0 = Ok s1 /\
    q s1 = mkC 0 PI /\
    compose_optics (optics s1) = mkM 1 0 (-1) 1 /\
    q_out (propagate_beam s1) = Some (Finite (q s1)) /\
    bilinear (compose_optics (optics s1)) (q s1)
    = Finite (mkC (- PI ^ 2 / (1 + PI ^ 2)) (PI / (1 + PI ^ 2))) /\
    q_out (propagate_beam s1)
    <> Some (bilinear (compose_optics (optics s1)) (q s1)).
Proof.
  assert (Hpi := PI_RGT_0).
  assert (Hden : 1 + PI ^ 2 <> 0) by nra.
  set (s0 := mkOS (mkC 0 PI) 1 1 0 0 [] None None None None).
  set (s1 := optics_append s0 (mkM 1 0 (-1) 1)).
  assert (Hq : q_out (propagate_beam s1) = Some (Finite (mkC 0 PI))).
  { simpl. rewrite compose_optics_single. f_equal.
    apply q_transform_lower. apply complex_nonzero_real. simpl. lra. }
  assert (Hb : bilinear (mkM 1 0 (-1) 1) (mkC 0 PI)
               = Finite (mkC (- PI ^ 2 / (1 + PI ^ 2)) (PI / (1 + PI ^ 2)))).
  { unfold bilinear. rewrite np_cdiv_nonzero.
    - f_equal. unfold Cquot, Cnorm2. apply complex_eq; simpl; field; nra.
    - apply complex_nonzero_real. simpl. lra. }
  exists s0, s1. repeat split.
  - rewrite init_nonzero_wavelength by lra. unfold s0. do 2 f_equal.
    apply complex_eq; [reflexivity | field].
  - unfold lens. simpl. rewrite py_div_nonzero by lra. simpl. unfold s1.
    do 3 f_equal. field.
  - simpl. apply compose_optics_single.
  - exact Hq.
  - simpl optics. rewrite compose_optics_single. exact Hb.
  - simpl optics. simpl q. rewrite compose_optics_single, Hb.
    change (compose_optics (optics s1)) with (compose_optics ([] ++ [mkM 1 0 (-1) 1])) in Hq.
    rewrite Hq. intros E. injection E as E _.
    assert (Hpos : 0 < PI ^ 2 / (1 + PI ^ 2)) by (apply Rdiv_lt_0_compat; nra).
    simpl in Hpos. unfold Rdiv in E, Hpos. lra.
Qed.

(** Unfolds the operations on the object down to its attributes, leaving
    the arithmetic as it is. *)
Ltac beam_fields :=
  cbv zeta; unfold propagate_beam, freeSpace, optics_append;
  cbn [fst q wavelength waist theta z optics q_out waist_out z_out theta_out app].

(** ** Propagation through no element *)

(** C3 (amended): for a beam built with [wavelength > 0] and [waist > 0]
    (any [z], [theta]), [propagate_beam] on the empty element list stores
    [z_out = z], [theta_out = theta] and [q_out = q] exactly, and
    [waist_out = sqrt(wavelength * (pi*waist^2/wavelength) / pi)], the
    formula of line 98 at [q = i*pi*waist^2/wavelength]: the waist in exact
    arithmetic (lemma [waist_formula_at_waist_exact]), the waist up to
    rounding in float64. *)
Theorem propagate_beam_empty_outputs :
  forall (wl w z0 th : R) (Rcurv : npval R),
    0 < wl -> 0 < w ->
    exists (self : OpticalSystem),
      __init__ wl w z0 th Rcurv = Ok self /\
      optics self = [] /\
      z self = z0 /\ theta self = th /\ waist self = w /\
      q self = mkC 0 (PI * w ^ 2 / wl) /\
      z_out (propagate_beam self) = Some z0 /\
      theta_out (propagate_beam self) = Some th /\
      q_out (propagate_beam self) = Some (Finite (q self)) /\
      waist_out (propagate_beam self)
      = Some (Finite (sqrt (wl * (PI * w ^ 2 / wl) / PI))).
Proof.
  intros wl w z0 th Rcurv Hwl Hw.
  assert (Hpi := PI_RGT_0).
  assert (Him : 0 < PI * w ^ 2 / wl).
  { apply Rdiv_lt_0_compat; [| exact Hwl]. apply Rmult_lt_0_compat; [lra |]. nra. }
  eexists. split; [apply init_nonzero_wavelength; lra |].
  assert (Hq : q_transform eye (mkC 0 (PI * w ^ 2 / wl))
               = Finite (mkC 0 (PI * w ^ 2 / wl))).
  { unfold eye. rewrite q_transform_affine. f_equal. apply complex_eq; ring. }
  repeat split; beam_fields; rewrite ?compose_optics_nil.
  - f_equal. unfold eye. simpl. ring.
  - f_equal. unfold eye. simpl. ring.
  - now rewrite Hq.
  - rewrite Hq. f_equal.
    rewrite waist_of_q_finite by (cbn [imag]; lra). cbn [real imag]. f_equal.
    rewrite (Rabs_pos_eq _ (Rlt_le _ _ Him)).
    replace (1 + (0 / (PI * w ^ 2 / wl)) ^ 2) with 1 by (field; nra).
    rewrite sqrt_1. ring.
Qed.

Lemma propagate_beam_empty_outputs_witness :
  0 < 1 /\ 0 < 2 /\
  exists (self : OpticalSystem),
    __init__ 1 2 3 4 NonFinite = Ok self /\
    optics self = [] /\
    z self = 3 /\ theta self = 4 /\ waist self = 2 /\
    q self = mkC 0 (PI * 2 ^ 2 / 1) /\
    z_out (propagate_beam self) = Some 3 /\
    theta_out (propagate_beam self) = Some 4 /\
    q_out (propagate_beam self) = Some (Finite (q self)) /\
    waist_out (propagate_beam self)
    = Some (Finite (sqrt (1 * (PI * 2 ^ 2 / 1) / PI))).
Proof.
  split; [lra |]. split; [lra |].
  apply (propagate_beam_empty_outputs 1 2 3 4 NonFinite); lra.
Defined.

(** ** The output waist *)

(** C4: whenever the stored [q_out] is a (finite) complex number with a
    nonzero imaginary part, the stored [waist_out] is
    [sqrt(wavelength*|Im q_out|/pi) * sqrt(1 + (Re q_out / Im q_out)^2)],
    computed from that [q_out]; for a negative wavelength, which [__init__]
    accepts, the first radicand is negative and the value [np.sqrt] gives
    for it, and so [waist_out], is nan. *)
Theorem propagate_beam_waist_out_formula :
  forall (self : OpticalSystem) (c : complex),
    q_out (propagate_beam self) = Some (Finite c) ->
    imag c <> 0 ->
    (0 <= wavelength self ->
     waist_out (propagate_beam self)
     = Some (Finite (sqrt (wavelength self * Rabs (imag c) / PI)
                     * sqrt (1 + (real c / imag c) ^ 2)))) /\
    (wavelength self < 0 ->
     waist_out (propagate_beam self) = Some NonFinite).
Proof.
  intros self c Hq Him. simpl in Hq. injection Hq as Hq.
  split; intros Hwl; simpl; rewrite Hq; f_equal.
  - now apply waist_of_q_finite.
  - now apply waist_of_q_negative.
Qed.

Lemma propagate_beam_waist_out_formula_witness :
  (q_out (propagate_beam
            (mkOS (mkC 3 2) 1 1 0 0 [freeSpace_matrix 4] None None None None))
   = Some (Finite (mkC 7 2)) /\
   imag (mkC 7 2) <> 0 /\
   0 <= 1 /\
   waist_out (propagate_beam
                (mkOS (mkC 3 2) 1 1 0 0 [freeSpace_matrix 4] None None None None))
   = Some (Finite (sqrt (1 * Rabs 2 / PI) * sqrt (1 + (7 / 2) ^ 2)))) /\
  (q_out (propagate_beam
            (mkOS (mkC 3 2) (-1) 1 0 0 [freeSpace_matrix 4] None None None None))
   = Some (Finite (mkC 7 2)) /\
   imag (mkC 7 2) <> 0 /\
   -1 < 0 /\
   waist_out (propagate_beam
                (mkOS (mkC 3 2) (-1) 1 0 0 [freeSpace_matrix 4] None None None None))
   = Some NonFinite).
Proof.
  assert (Hq : forall wl,
             q_out (propagate_beam
                      (mkOS (mkC 3 2) wl 1 0 0 [freeSpace_matrix 4] None None None None))
             = Some (Finite (mkC 7 2))).
  { intros wl. beam_fields. rewrite compose_optics_single.
    unfold freeSpace_matrix. rewrite q_transform_affine.
    do 2 f_equal. apply complex_eq; ring. }
  assert (Him : imag (mkC 7 2) <> 0) by (simpl; lra).
  assert (Hpos : 0 <= 1) by lra.
  assert (Hneg : -1 < 0) by lra.
  split.
  - split; [exact (Hq 1) |]. split; [exact Him |]. split; [exact Hpos |].
    exact (proj1 (propagate_beam_waist_out_formula _ (mkC 7 2) (Hq 1) Him) Hpos).
  - split; [exact (Hq (-1)) |]. split; [exact Him |]. split; [exact Hneg |].
    exact (proj2 (propagate_beam_waist_out_formula _ (mkC 7 2) (Hq (-1)) Him) Hneg).
Defined.

(** ** Two free-space gaps *)

Lemma compose_optics_freeSpace_twice (elements : list matrix) (d1 d2 : R) :
  compose_optics ((elements ++ [freeSpace_matrix d1]) ++ [freeSpace_matrix d2])
  = compose_optics (elements ++ [freeSpace_matrix (d1 + d2)]).
Proof.
  rewrite !compose_optics_snoc, <- matmul_assoc.
  now rewrite freeSpace_matrix_add.
Qed.

(** After any appends, two gaps and one gap of the summed distance give the
    same four outputs. *)
Lemma propagate_beam_freeSpace_twice (self : OpticalSystem) (d1 d2 : R) :
  let two := propagate_beam (fst (freeSpace d2 true (fst (freeSpace d1 true self)))) in
  let one := propagate_beam (fst (freeSpace (d1 + d2) true self)) in
  q_out two = q_out one /\ waist_out two = waist_out one /\
  z_out two = z_out one /\ theta_out two = theta_out one.
Proof.
  simpl. rewrite compose_optics_freeSpace_twice. now repeat split.
Qed.

(** C5: for a beam built with [wavelength > 0] and [waist > 0] and all
    distances [d1], [d2], [freeSpace(d1); freeSpace(d2); propagate_beam()]
    stores the same [q_out], [z_out] and [theta_out] as
    [freeSpace(d1 + d2); propagate_beam()]: namely [q + (d1 + d2)],
    [z + (d1 + d2)*theta] and [theta]. *)
Theorem freeSpace_twice_as_sum :
  forall (wl w z0 th : R) (Rcurv : npval R) (d1 d2 : R),
    0 < wl -> 0 < w ->
    exists (self : OpticalSystem),
      __init__ wl w z0 th Rcurv = Ok self /\
      let two := propagate_beam (fst (freeSpace d2 true (fst (freeSpace d1 true self)))) in
      let one := propagate_beam (fst (freeSpace (d1 + d2) true self)) in
      q_out two = q_out one /\
      z_out two = z_out one /\
      theta_out two = theta_out one /\
      q_out one = Some (Finite (Cadd (q self) (RtoC (d1 + d2)))) /\
      z_out one = Some (z0 + (d1 + d2) * th) /\
      theta_out one = Some th.
Proof.
  intros wl w z0 th Rcurv d1 d2 Hwl Hw.
  eexists. split; [apply init_nonzero_wavelength; lra |].
  match goal with
  | |- context [freeSpace (d1 + d2) true ?s] =>
      destruct (propagate_beam_freeSpace_twice s d1 d2) as (Hq & _ & Hz & Ht)
  end.
  cbv zeta. repeat split; [exact Hq | exact Hz | exact Ht | | |].
  - beam_fields. rewrite compose_optics_single. unfold freeSpace_matrix.
    rewrite q_transform_affine. do 2 f_equal. apply complex_eq; simpl; ring.
  - beam_fields. rewrite compose_optics_single. f_equal. simpl. ring.
  - beam_fields. rewrite compose_optics_single. f_equal. simpl. ring.
Qed.

Lemma freeSpace_twice_as_sum_witness :
  0 < 1 /\ 0 < 2 /\
  exists (self : OpticalSystem),
    __init__ 1 2 3 4 NonFinite = Ok self /\
    let two := propagate_beam (fst (freeSpace 6 true (fst (freeSpace 5 true self)))) in
    let one := propagate_beam (fst (freeSpace (5 + 6) true self)) in
    q_out two = q_out one /\
    z_out two = z_out one /\
    theta_out two = theta_out one /\
    q_out one = Some (Finite (Cadd (q self) (RtoC (5 + 6)))) /\
    z_out one = Some (3 + (5 + 6) * 4) /\
    theta_out one = Some 4.
Proof.
  split; [lra |]. split; [lra |].
  apply (freeSpace_twice_as_sum 1 2 3 4 NonFinite 5 6); lra.
Defined.

(** ** Interface round trip *)

(** C6: for a beam built with [wavelength > 0] and [waist > 0],
    [interface(1.0, 1.5, 0)] followed by [interface(1.5, 1.0, 0)] both
    succeed, and [propagate_beam] then stores [q_out = q]. *)
Theorem interface_round_trip :
  forall (wl w z0 th : R) (Rcurv : npval R),
    0 < wl -> 0 < w ->
    exists (self s1 s2 : OpticalSystem),
      __init__ wl w z0 th Rcurv = Ok self /\
      interface 1 1.5 0 self = Ok s1 /\
      interface 1.5 1 0 s1 = Ok s2 /\
      q_out (propagate_beam s2) = Some (Finite (q self)).
Proof.
  intros wl w z0 th Rcurv Hwl Hw.
  eexists. eexists. eexists.
  split; [apply init_nonzero_wavelength; lra |].
  split; [apply interface_nonzero; lra |].
  split; [apply interface_nonzero; lra |].
  beam_fields.
  change ([freeSpace_matrix (0 * 1.5 / 1); freeSpace_matrix (0 * 1 / 1.5)])
    with (([] ++ [freeSpace_matrix (0 * 1.5 / 1)]) ++ [freeSpace_matrix (0 * 1 / 1.5)]).
  rewrite compose_optics_freeSpace_twice. cbn [app].
  rewrite compose_optics_single. unfold freeSpace_matrix.
  rewrite q_transform_affine. do 2 f_equal. apply complex_eq; field; lra.
Qed.

Lemma interface_round_trip_witness :
  0 < 1 /\ 0 < 2 /\
  exists (self s1 s2 : OpticalSystem),
    __init__ 1 2 3 4 NonFinite = Ok self /\
    interface 1 1.5 0 self = Ok s1 /\
    interface 1.5 1 0 s1 = Ok s2 /\
    q_out (propagate_beam s2) = Some (Finite (q self)).
Proof.
  split; [lra |]. split; [lra |].
  apply (interface_round_trip 1 2 3 4 NonFinite); lra.
Defined.

(** ** Outputs before the first propagation *)

Lemma init_outputs (wl w z0 th : R) (Rcurv : npval R) (self : OpticalSystem) :
  __init__ wl w z0 th Rcurv = Ok self ->
  q_out self = None /\ waist_out self = None /\
  z_out self = None /\ theta_out self = None.
Proof.
  unfold __init__.
  destruct (py_cdiv _ _); simpl; [| discriminate].
  intros H. injection H as <-. now repeat split.
Qed.

(** C9: on an object that was built and has received element appends only
    ([propagate_beam] not yet called), [plotBeamProfile] raises the
    [ValueError] of the unpropagated beam, and reading [q_out], [waist_out],
    [z_out] or [theta_out] raises [AttributeError]. *)
Theorem outputs_absent_before_propagate :
  forall (wl w z0 th : R) (Rcurv : npval R) (cs : list element_call)
         (self0 self : OpticalSystem),
    __init__ wl w z0 th Rcurv = Ok self0 ->
    append_elements cs self0 = Ok self ->
    plotBeamProfile self
    = Raise (ValueError
        "Beam has not been propagated yet. Run the propagate_beam() method first.") /\
    get_q_out self = Raise (AttributeError "q_out") /\
    get_waist_out self = Raise (AttributeError "waist_out") /\
    get_z_out self = Raise (AttributeError "z_out") /\
    get_theta_out self = Raise (AttributeError "theta_out").
Proof.
  intros wl w z0 th Rcurv cs self0 self Hinit Happ.
  apply init_outputs in Hinit. apply append_elements_outputs in Happ.
  destruct Hinit as (Hq & Hw & Hz & Ht), Happ as (Eq & Ew & Ez & Et).
  rewrite Hq in Eq. rewrite Hw in Ew. rewrite Hz in Ez. rewrite Ht in Et.
  unfold plotBeamProfile, get_q_out, get_waist_out, get_z_out, get_theta_out.
  rewrite Eq, Ew, Ez, Et. now repeat split.
Qed.

Lemma outputs_absent_before_propagate_witness :
  __init__ 1 2 3 4 NonFinite
  = Ok (mkOS (mkC 0 (PI * 2 ^ 2 / 1)) 1 2 4 3 [] None None None None) /\
  append_elements [CallFreeSpace 5; CallMirror 0 "flat"]
    (mkOS (mkC 0 (PI * 2 ^ 2 / 1)) 1 2 4 3 [] None None None None)
  = Ok (mkOS (mkC 0 (PI * 2 ^ 2 / 1)) 1 2 4 3
             [freeSpace_matrix 5; mkM 1 0 0 1] None None None None) /\
  plotBeamProfile
    (mkOS (mkC 0 (PI * 2 ^ 2 / 1)) 1 2 4 3
          [freeSpace_matrix 5; mkM 1 0 0 1] None None None None)
  = Raise (ValueError
      "Beam has not been propagated yet. Run the propagate_beam() method first.") /\
  get_q_out
    (mkOS (mkC 0 (PI * 2 ^ 2 / 1)) 1 2 4 3
          [freeSpace_matrix 5; mkM 1 0 0 1] None None None None)
  = Raise (AttributeError "q_out").
Proof.
  set (self0 := mkOS (mkC 0 (PI * 2 ^ 2 / 1)) 1 2 4 3 [] None None None None).
  set (self := mkOS (mkC 0 (PI * 2 ^ 2 / 1)) 1 2 4 3
                    [freeSpace_matrix 5; mkM 1 0 0 1] None None None None).
  assert (Hinit : __init__ 1 2 3 4 NonFinite = Ok self0)
    by (apply init_nonzero_wavelength; lra).
  assert (Happ : append_elements [CallFreeSpace 5; CallMirror 0 "flat"] self0 = Ok self)
    by reflexivity.
  split; [exact Hinit |]. split; [exact Happ |].
  destruct (outputs_absent_before_propagate 1 2 3 4 NonFinite
              [CallFreeSpace 5; CallMirror 0 "flat"] self0 self Hinit Happ)
    as (Hplot & Hq & _).
  split; [exact Hplot | exact Hq].
Defined.

(** * Further properties of the element operations *)

(** ** Unknown element types *)

(** X2: a lens type other than ['thin'] and ['thick'] raises
    [ValueError('Invalid lens type')], whatever the numbers are (no division
    is attempted, so [f = 0] does not matter). *)
Theorem lens_unknown_type_raises :
  forall (f n1 n2 d : R) (type : string) (self : OpticalSystem),
    type <> "thin"%string -> type <> "thick"%string ->
    lens f n1 n2 d type self = Raise (ValueError "Invalid lens type").
Proof.
  intros f n1 n2 d type self H1 H2. unfold lens.
  apply String.eqb_neq in H1. apply String.eqb_neq in H2.
  now rewrite H1, H2.
Qed.

Lemma lens_unknown_type_raises_witness :
  "Thin"%string <> "thin"%string /\ "Thin"%string <> "thick"%string /\
  lens 0 0 0 0 "Thin" (mkOS (mkC 0 1) 1 1 0 0 [] None None None None)
  = Raise (ValueError "Invalid lens type").
Proof.
  assert (H1 : "Thin"%string <> "thin"%string) by discriminate.
  assert (H2 : "Thin"%string <> "thick"%string) by discriminate.
  split; [exact H1 |]. split; [exact H2 |].
  exact (lens_unknown_type_raises 0 0 0 0 "Thin"
           (mkOS (mkC 0 1) 1 1 0 0 [] None None None None) H1 H2).
Defined.

(** X3: a mirror type other than ['flat'] and ['curved'] raises
    [ValueError('Invalid mirror type')], whatever the radius is. *)
Theorem mirror_unknown_type_raises :
  forall (radius : R) (type : string) (self : OpticalSystem),
    type <> "flat"%string -> type <> "curved"%string ->
    mirror radius type self = Raise (ValueError "Invalid mirror type").
Proof.
  intros radius type self H1 H2. unfold mirror.
  apply String.eqb_neq in H1. apply String.eqb_neq in H2.
  now rewrite H1, H2.
Qed.

Lemma mirror_unknown_type_raises_witness :
  "concave"%string <> "flat"%string /\ "concave"%string <> "curved"%string /\
  mirror 0 "concave" (mkOS (mkC 0 1) 1 1 0 0 [] None None None None)
  = Raise (ValueError "Invalid mirror type").
Proof.
  assert (H1 : "concave"%string <> "flat"%string) by discriminate.
  assert (H2 : "concave"%string <> "curved"%string) by discriminate.
  split; [exact H1 |]. split; [exact H2 |].
  exact (mirror_unknown_type_raises 0 "concave"
           (mkOS (mkC 0 1) 1 1 0 0 [] None None None None) H1 H2).
Defined.

(** ** Thick lens *)

Lemma lens_thick_nonzero (f n1 n2 d : R) (self : OpticalSystem) :
  f <> 0 -> n1 <> 0 -> n2 <> 0 ->
  lens f n1 n2 d "thick" self
  = Ok (optics_append self
          (mkM (1 + d * (n1 - n2) / (n2 * f)) (d * n1 / n2)
               (- (d * (n1 - n2) ^ 2) / (n1 * n2 * f ^ 2))
               (1 - d * (n1 - n2) / (n2 * f)))).
Proof.
  intros Hf H1 H2. unfold lens. simpl.
  rewrite (py_div_nonzero (n2 - n1) n1 H1). simpl.
  rewrite (py_div_nonzero _ f Hf). simpl.
  rewrite (py_div_nonzero n2 n1 H1). simpl.
  rewrite (py_div_nonzero (n1 - n2) n2 H2). simpl.
  rewrite (py_div_nonzero _ f Hf). simpl.
  rewrite (py_div_nonzero n1 n2 H2). simpl.
  do 2 f_equal. unfold matmul, freeSpace_matrix.
  apply matrix_eq; simpl; field; auto.
Qed.

(** X7: a thick lens between equal nonzero indices appends the free-space
    matrix of its thickness: the focal length has no effect. *)
Theorem lens_thick_equal_indices_is_freeSpace :
  forall (f n d : R) (self : OpticalSystem),
    f <> 0 -> n <> 0 ->
    lens f n n d "thick" self = Ok (fst (freeSpace d true self)).
Proof.
  intros f n d self Hf Hn.
  rewrite (lens_thick_nonzero f n n d self Hf Hn Hn). simpl. do 2 f_equal. unfold freeSpace_matrix.
  apply matrix_eq; field; auto.
Qed.

Lemma lens_thick_equal_indices_is_freeSpace_witness :
  2 <> 0 /\ 3 <> 0 /\
  lens 2 3 3 5 "thick" (mkOS (mkC 0 1) 1 1 0 0 [] None None None None)
  = Ok (fst (freeSpace 5 true (mkOS (mkC 0 1) 1 1 0 0 [] None None None None))).
Proof.
  assert (Hf : 2 <> 0) by lra.
  assert (Hn : 3 <> 0) by lra.
  split; [exact Hf |]. split; [exact Hn |].
  exact (lens_thick_equal_indices_is_freeSpace 2 3 5
           (mkOS (mkC 0 1) 1 1 0 0 [] None None None None) Hf Hn).
Defined.

(** ** Curved mirror *)


(** ** Interface *)

(** X9: an interface between equal nonzero indices appends exactly the
    free-space matrix [[1,d],[0,1]] of its distance: the same object state
    as after [freeSpace(d)]. *)
Theorem interface_equal_indices_is_freeSpace :
  forall (n d : R) (self : OpticalSystem),
    n <> 0 ->
    interface n n d self = Ok (fst (freeSpace d true self)).
Proof.
  intros n d self Hn. rewrite (interface_nonzero n n d self Hn Hn).
  simpl. do 3 f_equal. field. exact Hn.
Qed.

Lemma interface_equal_indices_is_freeSpace_witness :
  1.5 <> 0 /\
  interface 1.5 1.5 4 (mkOS (mkC 0 1) 1 1 0 0 [] None None None None)
  = Ok (fst (freeSpace 4 true (mkOS (mkC 0 1) 1 1 0 0 [] None None None None))).
Proof.
  assert (Hn : 1.5 <> 0) by lra.
  split; [exact Hn |].
  exact (interface_equal_indices_is_freeSpace 1.5 4
           (mkOS (mkC 0 1) 1 1 0 0 [] None None None None) Hn).
Defined.

(** ** What every append keeps *)

(** A successful append adds one matrix at the end and touches nothing
    else. *)
Lemma append_element_spec (c : element_call) (self self' : OpticalSystem) :
  append_element c self = Ok self' ->
  exists m : matrix, self' = optics_append self m.
Proof.
  destruct c as [d | f n1 n2 d type | radius type | n1 n2 d]; simpl.
  - intros H. injection H as <-. now exists (freeSpace_matrix d).
  - unfold lens.
    destruct (String.eqb type "thin").
    + destruct (py_div (-1) f) as [c |]; simpl; [| discriminate].
      intros H. injection H as <-. now eexists.
    + destruct (String.eqb type "thick"); [| discriminate].
      destruct (py_div (n2 - n1) n1) as [t1 |]; simpl; [| discriminate].
      destruct (py_div t1 f); simpl; [| discriminate].
      destruct (py_div n2 n1); simpl; [| discriminate].
      destruct (py_div (n1 - n2) n2) as [t2 |]; simpl; [| discriminate].
      destruct (py_div t2 f); simpl; [| discriminate].
      destruct (py_div n1 n2); simpl; [| discriminate].
      intros H. injection H as <-. now eexists.
  - unfold mirror.
    destruct (String.eqb type "flat").
    + intros H. injection H as <-. now eexists.
    + destruct (String.eqb type "curved"); [| discriminate].
      destruct (py_div (-2) radius) as [c |]; simpl; [| discriminate].
      intros H. injection H as <-. now eexists.
  - unfold interface.
    destruct (py_div n1 n2); simpl; [| discriminate].
    destruct (py_div n2 n1); simpl; [| discriminate].
    intros H. injection H as <-. now eexists.
Qed.

Lemma append_elements_spec (cs : list element_call) :
  forall (self self' : OpticalSystem),
    append_elements cs self = Ok self' ->
    exists ms : list matrix,
      self' = mkOS (q self) (wavelength self) (waist self) (theta self) (z self)
                   (optics self ++ ms)%list
                   (q_out self) (waist_out self) (z_out self) (theta_out self) /\
      List.length ms = List.length cs.
Proof.
  induction cs as [| c rest IH]; intros self self'; simpl.
  - intros H. injection H as <-. exists []. rewrite app_nil_r.
    split; [now destruct self | reflexivity].
  - destruct (append_element c self) as [s1 |] eqn:E; simpl; [| discriminate].
    intros H. apply IH in H. destruct H as (ms & -> & Hlen).
    apply append_element_spec in E. destruct E as (m & ->).
    exists (m :: ms). simpl. rewrite <- app_assoc. simpl.
    split; [reflexivity | now rewrite Hlen].
Qed.



(** ** Sequences of free-space gaps *)

Lemma compose_optics_freeSpace_list (ds : list R) :
  compose_optics (map freeSpace_matrix ds) = freeSpace_matrix (total_distance ds).
Proof.
  induction ds as [| d rest IH]; simpl map.
  - reflexivity.
  - rewrite compose_optics_cons, IH. apply freeSpace_matrix_add.
Qed.

Lemma append_elements_freeSpace_list (ds : list R) :
  forall self : OpticalSystem,
    append_elements (map CallFreeSpace ds) self
    = Ok (mkOS (q self) (wavelength self) (waist self) (theta self) (z self)
               (optics self ++ map freeSpace_matrix ds)%list
               (q_out self) (waist_out self) (z_out self) (theta_out self)).
Proof.
  induction ds as [| d rest IH]; intros self; simpl.
  - rewrite app_nil_r. now destruct self.
  - rewrite IH. simpl. now rewrite <- app_assoc.
Qed.

(** X14: on a beam built with [wavelength > 0] and [waist > 0], any number
    of free-space gaps [d1, ..., dn] always append, and [propagate_beam]
    then stores, with [L = d1 + (d2 + ... + dn)] and
    [y = pi*waist^2/wavelength]: [q_out = L + i*y], [z_out = z + L*theta],
    [theta_out = theta] and
    [waist_out = sqrt(wavelength*|y|/pi) * sqrt(1 + (L/y)^2)]. *)
Theorem freeSpace_sequence_outputs :
  forall (wl w z0 th : R) (Rcurv : npval R) (ds : list R),
    0 < wl -> 0 < w ->
    exists (self0 self : OpticalSystem),
      __init__ wl w z0 th Rcurv = Ok self0 /\
      append_elements (map CallFreeSpace ds) self0 = Ok self /\
      q_out (propagate_beam self)
      = Some (Finite (mkC (total_distance ds) (PI * w ^ 2 / wl))) /\
      z_out (propagate_beam self) = Some (z0 + total_distance ds * th) /\
      theta_out (propagate_beam self) = Some th /\
      waist_out (propagate_beam self)
      = Some (Finite (sqrt (wl * Rabs (PI * w ^ 2 / wl) / PI)
                      * sqrt (1 + (total_distance ds / (PI * w ^ 2 / wl)) ^ 2))).
Proof.
  intros wl w z0 th Rcurv ds Hwl Hw.
  assert (Hpi := PI_RGT_0).
  assert (Hy : 0 < PI * w ^ 2 / wl).
  { apply Rdiv_lt_0_compat; [| exact Hwl]. apply Rmult_lt_0_compat; [lra |]. nra. }
  eexists. eexists.
  split; [apply init_nonzero_wavelength; lra |].
  split; [apply append_elements_freeSpace_list |].
  assert (Hq : q_transform (freeSpace_matrix (total_distance ds))
                 (mkC 0 (PI * w ^ 2 / wl))
               = Finite (mkC (total_distance ds) (PI * w ^ 2 / wl))).
  { unfold freeSpace_matrix. rewrite q_transform_affine. f_equal.
    apply complex_eq; ring. }
  beam_fields. rewrite compose_optics_freeSpace_list, Hq.
  repeat split.
  - f_equal. unfold freeSpace_matrix. simpl. ring.
  - f_equal. unfold freeSpace_matrix. simpl. ring.
  - rewrite waist_of_q_finite by (cbn [imag]; lra). reflexivity.
Qed.

Lemma freeSpace_sequence_outputs_witness :
  0 < 1 /\ 0 < 2 /\
  exists (self0 self : OpticalSystem),
    __init__ 1 2 3 4 NonFinite = Ok self0 /\
    append_elements (map CallFreeSpace [5; 6; 7]) self0 = Ok self /\
    q_out (propagate_beam self)
    = Some (Finite (mkC (total_distance [5; 6; 7]) (PI * 2 ^ 2 / 1))) /\
    z_out (propagate_beam self) = Some (3 + total_distance [5; 6; 7] * 4) /\
    theta_out (propagate_beam self) = Some 4 /\
    waist_out (propagate_beam self)
    = Some (Finite (sqrt (1 * Rabs (PI * 2 ^ 2 / 1) / PI)
                    * sqrt (1 + (total_distance [5; 6; 7] / (PI * 2 ^ 2 / 1)) ^ 2))).
Proof.
  split; [lra |]. split; [lra |].
  apply (freeSpace_sequence_outputs 1 2 3 4 NonFinite [5; 6; 7]); lra.
Defined.

(** ** Elements without effect *)

Lemma propagate_beam_append_eye (self : OpticalSystem) :
  q_out (propagate_beam (optics_append self eye)) = q_out (propagate_beam self) /\
  waist_out (propagate_beam (optics_append self eye)) = waist_out (propagate_beam self) /\
  z_out (propagate_beam (optics_append self eye)) = z_out (propagate_beam self) /\
  theta_out (propagate_beam (optics_append self eye)) = theta_out (propagate_beam self).
Proof.
  beam_fields. rewrite compose_optics_snoc, matmul_eye_l. now repeat split.
Qed.

(** X15: a flat mirror (whatever radius is passed, zero included) and a
    free-space gap of length zero always append, and leave every output of
    a later [propagate_beam] as it would be without them. *)
Theorem flat_mirror_and_zero_gap_no_effect :
  forall (radius : R) (self : OpticalSystem),
    (exists s1 : OpticalSystem,
        mirror radius "flat" self = Ok s1 /\
        q_out (propagate_beam s1) = q_out (propagate_beam self) /\
        waist_out (propagate_beam s1) = waist_out (propagate_beam self) /\
        z_out (propagate_beam s1) = z_out (propagate_beam self) /\
        theta_out (propagate_beam s1) = theta_out (propagate_beam self)) /\
    q_out (propagate_beam (fst (freeSpace 0 true self))) = q_out (propagate_beam self) /\
    waist_out (propagate_beam (fst (freeSpace 0 true self))) = waist_out (propagate_beam self) /\
    z_out (propagate_beam (fst (freeSpace 0 true self))) = z_out (propagate_beam self) /\
    theta_out (propagate_beam (fst (freeSpace 0 true self))) = theta_out (propagate_beam self).
Proof.
  intros radius self. split.
  - exists (optics_append self eye). split; [reflexivity |].
    apply propagate_beam_append_eye.
  - apply (propagate_beam_append_eye self).
Qed.

(** ** Outputs after later appends *)

(** X18: elements appended after a [propagate_beam] do not touch the stored
    outputs: until the next [propagate_beam] the four attributes keep the
    values of the earlier, shorter system, and [plotBeamProfile] does not
    raise and returns the series of that earlier propagation. *)
Theorem outputs_stale_after_append :
  forall (self : OpticalSystem) (cs : list element_call) (self' : OpticalSystem),
    append_elements cs (propagate_beam self) = Ok self' ->
    q_out self' = q_out (propagate_beam self) /\
    waist_out self' = waist_out (propagate_beam self) /\
    z_out self' = z_out (propagate_beam self) /\
    theta_out self' = theta_out (propagate_beam self) /\
    plotBeamProfile self' = plotBeamProfile (propagate_beam self) /\
    (exists p : npval profile, plotBeamProfile self' = Ok p) /\
    optics self' = (optics self ++ skipn (List.length (optics self)) (optics self'))%list /\
    List.length (optics self') = (List.length (optics self) + List.length cs)%nat.
Proof.
  intros self cs self' H.
  apply append_elements_spec in H. destruct H as (ms & -> & Hlen).
  cbn [q wavelength waist theta z optics q_out waist_out z_out theta_out propagate_beam].
  repeat split.
  - unfold plotBeamProfile. cbn [waist_out wavelength]. eexists. reflexivity.
  - rewrite skipn_app, Nat.sub_diag, skipn_all. reflexivity.
  - now rewrite length_app, Hlen.
Qed.

Lemma outputs_stale_after_append_witness :
  append_elements [CallFreeSpace 5]
    (propagate_beam (mkOS (mkC 0 1) 1 1 4 3 [] None None None None))
  = Ok (optics_append
          (propagate_beam (mkOS (mkC 0 1) 1 1 4 3 [] None None None None))
          (freeSpace_matrix 5)) /\
  z_out (optics_append
           (propagate_beam (mkOS (mkC 0 1) 1 1 4 3 [] None None None None))
           (freeSpace_matrix 5))
  = z_out (propagate_beam (mkOS (mkC 0 1) 1 1 4 3 [] None None None None)).
Proof.
  assert (H : append_elements [CallFreeSpace 5]
                (propagate_beam (mkOS (mkC 0 1) 1 1 4 3 [] None None None None))
              = Ok (optics_append
                      (propagate_beam (mkOS (mkC 0 1) 1 1 4 3 [] None None None None))
                      (freeSpace_matrix 5))) by reflexivity.
  split; [exact H |].
  destruct (outputs_stale_after_append _ _ _ H) as (_ & _ & Hz & _).
  exact Hz.
Defined.

(** ** The plotted series *)








(** ** A beam of zero waist *)

Lemma waist_of_q_transform_zero (wl : R) (m : matrix) :
  waist_of_q wl (q_transform m (mkC 0 0)) = NonFinite.
Proof.
  unfold q_transform.
  destruct (np_cdiv (RtoC (m01 m)) (Cadd (Cmul (RtoC (m10 m)) (mkC 0 0)) (RtoC (m11 m))))
    as [t |] eqn:E; cbn [np_bind]; [| reflexivity].
  unfold np_cdiv in E.
  destruct (Ceq_dec _ _) as [| Hd]; [discriminate |]. injection E as <-.
  apply waist_of_q_zero_imag.
  unfold Cquot, Cnorm2, Rdiv. simpl. ring.
Qed.

(** X20: a waist of zero is accepted by [__init__] (nonzero wavelength);
    then, whatever elements are appended, [propagate_beam] stores a
    [q_out] without imaginary part or a non-finite one, [waist_out] is nan
    or inf, and [plotBeamProfile] passes its guard all the same and
    computes its series from that value. *)
Theorem zero_waist_nonfinite_waist_out :
  forall (wl z0 th : R) (Rcurv : npval R) (cs : list element_call)
         (self0 self : OpticalSystem),
    __init__ wl 0 z0 th Rcurv = Ok self0 ->
    append_elements cs self0 = Ok self ->
    waist_out (propagate_beam self) = Some NonFinite /\
    plotBeamProfile (propagate_beam self) = Ok NonFinite.
Proof.
  intros wl z0 th Rcurv cs self0 self Hinit Happ.
  assert (Hwl : wl <> 0).
  { intros ->. rewrite init_zero_wavelength in Hinit. discriminate. }
  assert (Hw : waist_out (propagate_beam self) = Some NonFinite).
  { rewrite init_nonzero_wavelength in Hinit by exact Hwl.
    injection Hinit as <-.
    apply append_elements_spec in Happ. destruct Happ as (ms & -> & _).
    beam_fields. f_equal.
    match goal with
    | |- context [mkC 0 ?y] => replace y with 0 by (simpl; field; exact Hwl)
    end.
    apply waist_of_q_transform_zero. }
  split; [exact Hw |].
  unfold plotBeamProfile. rewrite Hw. reflexivity.
Qed.

Lemma zero_waist_nonfinite_waist_out_witness :
  __init__ 1 0 3 4 NonFinite
  = Ok (mkOS (mkC 0 (PI * 0 ^ 2 / 1)) 1 0 4 3 [] None None None None) /\
  append_elements [CallFreeSpace 5]
    (mkOS (mkC 0 (PI * 0 ^ 2 / 1)) 1 0 4 3 [] None None None None)
  = Ok (mkOS (mkC 0 (PI * 0 ^ 2 / 1)) 1 0 4 3 [freeSpace_matrix 5]
             None None None None) /\
  waist_out (propagate_beam
               (mkOS (mkC 0 (PI * 0 ^ 2 / 1)) 1 0 4 3 [freeSpace_matrix 5]
                     None None None None)) = Some NonFinite /\
  plotBeamProfile (propagate_beam
                     (mkOS (mkC 0 (PI * 0 ^ 2 / 1)) 1 0 4 3 [freeSpace_matrix 5]
                           None None None None)) = Ok NonFinite.
Proof.
  assert (Hinit : __init__ 1 0 3 4 NonFinite
                  = Ok (mkOS (mkC 0 (PI * 0 ^ 2 / 1)) 1 0 4 3 [] None None None None))
    by (apply init_nonzero_wavelength; lra).
  assert (Happ : append_elements [CallFreeSpace 5]
                   (mkOS (mkC 0 (PI * 0 ^ 2 / 1)) 1 0 4 3 [] None None None None)
                 = Ok (mkOS (mkC 0 (PI * 0 ^ 2 / 1)) 1 0 4 3 [freeSpace_matrix 5]
                            None None None None)) by reflexivity.
  split; [exact Hinit |]. split; [exact Happ |].
  exact (zero_waist_nonfinite_waist_out 1 3 4 NonFinite _ _ _ Hinit Happ).
Defined.

(** * Facts of the float64 evaluation *)

Module Float64Facts.

Import PrimFloat.
Import Float64.
Local Open Scope float_scope.

(** Two stored values that a boolean test tells apart are different. *)
Lemma stored_neq (x y : option float) (test : float -> bool) :
  match x with Some v => test v | None => false end
  <> match y with Some v => test v | None => false end ->
  x <> y.
Proof. intros H E. apply H. now rewrite E. Qed.

(** ** The empty system in float64 *)

(** C3, as stated, fails at [OpticalSystem(1.06e-5, 1.0)] (the wavelength
    is the double [0x1.63ad4e8244128p-17]): with no element,
    [propagate_beam] stores [q_out = q], [z_out = z] and
    [theta_out = theta], but [waist_out = 0.99999999999999989], the double
    just below the waist [1.0]. *)
Lemma empty_system_waist_out_differs :
  exists self : OpticalSystem,
    __init__ (Py 0x1.63ad4e8244128p-17) (Py 1) (Py 0) (Py 0) (Np infinity) = Ok self /\
    optics self = [] /\
    waist self = Py 1 /\
    q_out (propagate_beam self) = Some (q self) /\
    z_out (propagate_beam self) = Some (value (z self)) /\
    theta_out (propagate_beam self) = Some (value (theta self)) /\
    waist_out (propagate_beam self) = Some 0x1.fffffffffffffp-1 /\
    waist_out (propagate_beam self) <> Some (value (waist self)).
Proof.
  eexists. split; [vm_compute; reflexivity |].
  repeat match goal with |- _ /\ _ => split end; try (vm_compute; reflexivity).
  apply (stored_neq _ _ (fun v => v =? 1)). vm_compute. discriminate.
Qed.

(** ** The curved mirror by kind of radius *)

(** C8 (amended): [mirror(radius, type='curved')] raises
    [ZeroDivisionError], before anything is appended, exactly when the
    radius is a Python number equal to zero; for a NumPy scalar the
    division [-2/radius] never raises, and a NumPy zero appends
    [[1, 0], [-inf, 1]]. *)
Theorem mirror_curved_by_kind :
  forall (x : float) (self : OpticalSystem),
    mirror (Py x) "curved" self
    = (if x =? 0 then Raise ZeroDivisionError
       else Ok (optics_append self (mkM 1 0 (-2 / x) 1))) /\
    mirror (Np x) "curved" self = Ok (optics_append self (mkM 1 0 (-2 / x) 1)) /\
    mirror (Py 0) "curved" self = Raise ZeroDivisionError /\
    mirror (Np 0) "curved" self = Ok (optics_append self (mkM 1 0 neg_infinity 1)).
Proof.
  intros x self. repeat match goal with |- _ /\ _ => split end.
  - unfold mirror, truediv. simpl. now destruct (x =? 0).
  - reflexivity.
  - reflexivity.
  - reflexivity.
Qed.

(** C8, as stated, fails at [mirror(radius=np.float64(0), type='curved')]
    on the beam [OpticalSystem(1.0, 1.0)]: the call raises nothing and
    appends the matrix [[1, 0], [-inf, 1]]. *)
Lemma mirror_numpy_zero_radius_appends_inf :
  exists self : OpticalSystem,
    __init__ (Py 1) (Py 1) (Py 0) (Py 0) (Np infinity) = Ok self /\
    mirror (Np 0) "curved" self
    = Ok (optics_append self (mkM 1 0 neg_infinity 1)) /\
    mirror (Np 0) "curved" self <> Raise ZeroDivisionError /\
    is_infinity (m10 (mkM 1 0 neg_infinity 1)) = true.
Proof.
  eexists. split; [vm_compute; reflexivity |].
  split; [reflexivity |]. split; [discriminate | reflexivity].
Qed.

(** ** Zero indices and focal lengths by kind *)





End Float64Facts.
